(** * MapScreen: the resident map screen of the waste-collection app

    A shallow embedding of [src/screens/MapScreen.tsx]: the fill-level colour
    rule, the screen state held in React hooks, the asynchronous handlers
    (initial load, refresh, image picking, report submission) and the part of
    the render function that draws markers and the detail panel. *)

From Stdlib Require Import ZArith List String Ascii Bool Lia.
From Stdlib Require Import Floats.SpecFloat DecimalString.
Import ListNotations.
Open Scope string_scope.
Open Scope list_scope.

(** ** JavaScript numbers

    A TypeScript [number] is an IEEE 754 binary64 value.  [spec_float] is the
    Standard Library's specification of such values (signed zeros, signed
    infinities, NaN and finite [m * 2^e]); its comparison [SFcompare] is the
    IEEE comparison, undefined ([None]) as soon as one side is NaN.  Every
    double is a [spec_float]; what is proved below for all of [spec_float]
    holds for all doubles. *)
Module JS.

Definition number := spec_float.

Definition NaN : number := S754_nan.

(** The double nearest to an integer literal such as [90] or [500]. *)
Definition lit (z : Z) : number := binary_normalize 53 1024 z 0 false.

(** [x < y] *)
Definition lt (x y : number) : bool := SFltb x y.

(** [x >= y], that is [y <= x]; false when either side is NaN. *)
Definition ge (x y : number) : bool := SFleb y x.

Definition isNaN (x : number) : bool :=
  match x with S754_nan => true | _ => false end.

(** *** [Number.prototype.toFixed]

    A text that a number is turned into.  [Number::toString] is not modelled:
    where the language hands a number to it, the number is kept. *)
Inductive text : Type :=
| Str (s : string)
| ToString (x : number).

(** The integer [n] for which [n / 10^f] is nearest to [m * 2^e], the larger
    one when two are equally near. *)
Definition nearest (m : positive) (e : Z) (f : nat) : Z :=
  if (0 <=? e)%Z then Z.pos m * 2 ^ e * 10 ^ Z.of_nat f
  else (2 * Z.pos m * 10 ^ Z.of_nat f + 2 ^ (- e)) / 2 ^ (1 - e).

(** [m * 2^e >= 10^21] *)
Definition atLeast1e21 (m : positive) (e : Z) : bool :=
  if (0 <=? e)%Z then (10 ^ 21 <=? Z.pos m * 2 ^ e)%Z
  else (10 ^ 21 * 2 ^ (- e) <=? Z.pos m)%Z.

Fixpoint zeros (k : nat) : string :=
  match k with
  | O => ""
  | S k => String "0"%char (zeros k)
  end.

(** The decimal digits of [n >= 0], padded with zeros to [f + 1] digits, with
    a point before the last [f] of them. *)
Definition fixedDigits (n : Z) (f : nat) : string :=
  let m := NilZero.string_of_uint (N.to_uint (Z.to_N n)) in
  let k := String.length m in
  let m := if (k <=? f)%nat then String.append (zeros (f + 1 - k)) m else m in
  let k := String.length m in
  if (f =? 0)%nat then m
  else String.append (substring 0 (k - f) m)
         (String.append "." (substring (k - f) f m)).

(** [x.toFixed(f)]: NaN and the infinities by name; a sign only for a value
    below zero (so none for [-0]); [Number::toString] from [10^21] on. *)
Definition toFixed (x : number) (f : nat) : text :=
  match x with
  | S754_nan => Str "NaN"
  | S754_infinity false => Str "Infinity"
  | S754_infinity true => Str "-Infinity"
  | S754_zero _ => Str (fixedDigits 0 f)
  | S754_finite s m e =>
      if atLeast1e21 m e then ToString x
      else Str (String.append (if s then "-" else "")
                              (fixedDigits (nearest m e f) f))
  end.

End JS.

Definition number : Type := JS.number.

(** ** Marker colours (lines 228-233) *)

Definition red    : string := "#EF4444".
Definition amber  : string := "#F59E0B".
Definition yellow : string := "#FBBF24".
Definition green  : string := "#10B981".

Definition getFillLevelColor (fillLevel : number) : string :=
  if JS.ge fillLevel (JS.lit 90) then "#EF4444"
  else if JS.ge fillLevel (JS.lit 70) then "#F59E0B"
  else if JS.ge fillLevel (JS.lit 50) then "#FBBF24"
  else "#10B981".

(** ** Data model (lines 25-44) *)

(** The GeoJSON point of a bin: [coordinates] is the pair
    [[longitude, latitude]]; index 0 is [fst], index 1 is [snd]. *)
Record Point : Type := {
  type : string;
  coordinates : number * number
}.

Module Bin.
Record t : Type := {
  _id : string;
  location : Point;
  fillLevel : number
}.
End Bin.
Definition Bin : Type := Bin.t.

Record Coords : Type := {
  latitude : number;
  longitude : number
}.

(** What the collaborators hand back (only the fields the screen reads). *)
Record LocationObject : Type := { coords : Coords }.
Record PermissionResponse : Type := { status : string }.
Record ImagePickerAsset : Type := { uri : string; width : number; height : number }.

Inductive ImagePickerResult : Type :=
| Canceled                                   (* canceled: true,  assets: null *)
| Picked (assets : list ImagePickerAsset).   (* canceled: false *)

(** The seven [useState] cells of the component. *)
Record State : Type := {
  location : option Coords;
  bins : list Bin;
  selectedBin : option Bin;
  loading : bool;
  reportVisible : bool;
  reportText : string;
  images : list string
}.

(** The state of the first render (the initial values given to [useState]). *)
Definition mountState : State := {|
  location := None;
  bins := [];
  selectedBin := None;
  loading := true;
  reportVisible := false;
  reportText := "";
  images := []
|}.

(** ** Effects

    A handler is run against an environment that says how each awaited
    collaborator call settles; it yields the sequence of effects it performed
    (state-setter calls and calls to collaborators, in program order) and how
    it completed.  The state after a handler is the state before it with the
    setter calls applied in order.  No handler awaits the same collaborator
    twice, so one answer per collaborator describes a run; each run of a
    handler is given an environment of its own. *)

Definition Error : Type := string.

Inductive settled (A : Type) : Type :=
| Fulfilled (a : A)
| Rejected (e : Error).
Arguments Fulfilled {A} a.
Arguments Rejected {A} e.

Record Env : Type := {
  permissionsAnswer : settled PermissionResponse;
  positionAnswer : settled LocationObject;
  binsNearbyAnswer : number -> number -> number -> settled (list Bin);
  pickerAnswer : settled ImagePickerResult
}.

Inductive Event : Type :=
(* state setters *)
| SetLocation (l : Coords)
| SetBins (bs : list Bin)
| SetSelectedBin (b : Bin)
| SetLoading (b : bool)
| SetReportVisible (b : bool)
| SetReportText (t : string)
| SetImages (l : list string)
(* collaborators *)
| RequestForegroundPermissions
| GetCurrentPosition
| GetBinsNearby (lat lon radius : number)
| LaunchImageLibrary
| AlertAlert (title : string) (message : option string)
| ConsoleError (msg : string) (error : Error)
| ConsoleLog (msg : string) (text : string) (imgs : list string)
| Navigate (route : string).

(** How a block of statements completes: normally, by [return], or by a
    thrown error. *)
Inductive completion (A : Type) : Type :=
| Normal (a : A)
| Return
| Throw (e : Error).
Arguments Normal {A} a.
Arguments Return {A}.
Arguments Throw {A} e.

Definition M (A : Type) : Type := Env -> list Event * completion A.

Definition ret {A} (a : A) : M A := fun _ => ([], Normal a).

Definition bind {A B} (m : M A) (k : A -> M B) : M B := fun env =>
  let (t1, c1) := m env in
  match c1 with
  | Normal a => let (t2, c2) := k a env in (t1 ++ t2, c2)
  | Return => (t1, Return)
  | Throw e => (t1, Throw e)
  end.

Declare Scope handler_scope.
Delimit Scope handler_scope with handler.
Notation "x <- m ;; k" := (bind m (fun x => k))
  (at level 61, m at next level, right associativity) : handler_scope.
Notation "m ;; k" := (bind m (fun _ => k))
  (at level 61, right associativity) : handler_scope.
Open Scope handler_scope.

Definition emit (e : Event) : M unit := fun _ => ([e], Normal tt).

(** [await] of a collaborator call: the call is issued, then the promise
    either yields its value or rethrows its rejection. *)
Definition await {A} (call : Event) (answer : Env -> settled A) : M A := fun env =>
  ([call], match answer env with
           | Fulfilled a => Normal a
           | Rejected e => Throw e
           end).

Definition return_ {A} : M A := fun _ => ([], Return).

(** [try { body } catch (error) { handler } finally { finalizer }]: the
    finalizer runs however the body (or the handler) completed, and the
    statement completes as they did unless the finalizer itself returns or
    throws. *)
Definition try_catch_finally {A}
    (body : M A) (handler : Error -> M A) (finalizer : M unit) : M A := fun env =>
  let (t1, c1) := body env in
  let (t2, c2) := match c1 with
                  | Throw e => handler e env
                  | _ => ([], c1)
                  end in
  let (t3, c3) := finalizer env in
  (t1 ++ t2 ++ t3,
   match c3 with
   | Normal _ => c2
   | Return => Return
   | Throw e => Throw e
   end).

Definition trace {A} (m : M A) (env : Env) : list Event := fst (m env).
Definition outcome {A} (m : M A) (env : Env) : completion A := snd (m env).

(** The effect of one event on the state: setters overwrite their cell,
    everything else leaves the state alone. *)
Definition apply (s : State) (e : Event) : State :=
  match e with
  | SetLocation l =>
      {| location := Some l; bins := bins s; selectedBin := selectedBin s;
         loading := loading s; reportVisible := reportVisible s;
         reportText := reportText s; images := images s |}
  | SetBins bs =>
      {| location := location s; bins := bs; selectedBin := selectedBin s;
         loading := loading s; reportVisible := reportVisible s;
         reportText := reportText s; images := images s |}
  | SetSelectedBin b =>
      {| location := location s; bins := bins s; selectedBin := Some b;
         loading := loading s; reportVisible := reportVisible s;
         reportText := reportText s; images := images s |}
  | SetLoading b =>
      {| location := location s; bins := bins s; selectedBin := selectedBin s;
         loading := b; reportVisible := reportVisible s;
         reportText := reportText s; images := images s |}
  | SetReportVisible b =>
      {| location := location s; bins := bins s; selectedBin := selectedBin s;
         loading := loading s; reportVisible := b;
         reportText := reportText s; images := images s |}
  | SetReportText t =>
      {| location := location s; bins := bins s; selectedBin := selectedBin s;
         loading := loading s; reportVisible := reportVisible s;
         reportText := t; images := images s |}
  | SetImages l =>
      {| location := location s; bins := bins s; selectedBin := selectedBin s;
         loading := loading s; reportVisible := reportVisible s;
         reportText := reportText s; images := l |}
  | _ => s
  end.

Definition applyAll (s : State) (t : list Event) : State := fold_left apply t s.

(** The state once a handler has run to completion from [s]. *)
Definition run {A} (m : M A) (env : Env) (s : State) : State :=
  applyAll s (trace m env).

(** ** Setters and collaborators as the source calls them *)

Definition setLocation (l : Coords) : M unit := emit (SetLocation l).
Definition setBins (bs : list Bin) : M unit := emit (SetBins bs).
Definition setSelectedBin (b : Bin) : M unit := emit (SetSelectedBin b).
Definition setLoading (b : bool) : M unit := emit (SetLoading b).
Definition setReportVisible (b : bool) : M unit := emit (SetReportVisible b).
Definition setReportText (t : string) : M unit := emit (SetReportText t).
Definition setImages (l : list string) : M unit := emit (SetImages l).

Definition requestForegroundPermissionsAsync : M PermissionResponse :=
  await RequestForegroundPermissions permissionsAnswer.
Definition getCurrentPositionAsync : M LocationObject :=
  await GetCurrentPosition positionAnswer.
Definition getBinsNearby (lat lon radius : number) : M (list Bin) :=
  await (GetBinsNearby lat lon radius) (fun env => binsNearbyAnswer env lat lon radius).
Definition launchImageLibraryAsync : M ImagePickerResult :=
  await LaunchImageLibrary pickerAnswer.

Definition Alert_alert (title : string) (message : option string) : M unit :=
  emit (AlertAlert title message).
Definition console_error (msg : string) (error : Error) : M unit :=
  emit (ConsoleError msg error).
Definition console_log (msg text : string) (imgs : list string) : M unit :=
  emit (ConsoleLog msg text imgs).

(** ** The handlers *)

(** The asynchronous function run by [useEffect] on mount (lines 46-72). *)
Definition initialLoad : M unit :=
  setLoading true ;;
  try_catch_finally
    (response <- requestForegroundPermissionsAsync ;;
     (if negb (String.eqb (status response) "granted") then
        Alert_alert "Permission to access location was denied" None ;;
        setLoading false ;;
        return_
      else ret tt) ;;
     location <- getCurrentPositionAsync ;;
     setLocation {| latitude := latitude (coords location);
                    longitude := longitude (coords location) |} ;;
     binsNearby <- getBinsNearby (latitude (coords location))
                                 (longitude (coords location)) (JS.lit 500) ;;
     setBins binsNearby)
    (fun error =>
       console_error "Error loading map data:" error ;;
       Alert_alert "Error" (Some "Failed to load map data. Please try again."))
    (setLoading false).

(** [refreshBins] (lines 74-85); its closure reads the [location] cell. *)
Definition refreshBins (location : option Coords) : M unit :=
  match location with
  | None => return_
  | Some location =>
      setLoading true ;;
      try_catch_finally
        (binsNearby <- getBinsNearby (latitude location) (longitude location)
                                     (JS.lit 500) ;;
         setBins binsNearby)
        (fun error => console_error "Error refreshing bins:" error)
        (setLoading false)
  end.

(** [pickImages] (lines 87-98); its closure reads the [images] cell. *)
Definition pickImages (images : list string) : M unit :=
  result <- launchImageLibraryAsync ;;
  match result with
  | Picked assets =>                       (* !result.canceled *)
      let uris := map uri assets in
      setImages (images ++ uris)
  | Canceled => ret tt
  end.

(** [submitReport] (lines 100-106); its closure reads [reportText] and
    [images]. *)
Definition submitReport (reportText : string) (images : list string) : M unit :=
  console_log "Report Submitted:" reportText images ;;
  setReportVisible false ;;
  setReportText "" ;;
  setImages [] ;;
  Alert_alert "Success" (Some "Issue reported successfully.").

Definition navigateToCollectorLogin : M unit := emit (Navigate "CollectorLogin").

(** The handlers as bound by the render of state [s]. *)
Definition onRefresh (s : State) : M unit := refreshBins (location s).
Definition onPickImages (s : State) : M unit := pickImages (images s).
Definition onSubmit (s : State) : M unit := submitReport (reportText s) (images s).
Definition onMarkerPress (bin : Bin) : M unit := setSelectedBin bin.

(** ** Render (lines 113-225)

    The map with its markers, the detail panel and the loading overlay.  The
    guard on [suggestionMode] of line 158 names a variable the file never
    declares; it is left out. *)

Record MarkerProps : Type := {
  key : string;
  coordinate : Coords;
  backgroundColor : string;
  markerText : number
}.

Definition renderMarker (bin : Bin) : MarkerProps := {|
  key := Bin._id bin;
  coordinate := {| latitude := snd (coordinates (Bin.location bin));
                   longitude := fst (coordinates (Bin.location bin)) |};
  backgroundColor := getFillLevelColor (Bin.fillLevel bin);
  markerText := Bin.fillLevel bin
|}.

(** [location && <MapView> ... bins.map(bin => <Marker .../>) </MapView>] *)
Definition renderMarkers (s : State) : list MarkerProps :=
  match location s with
  | Some _ => map renderMarker (bins s)
  | None => []
  end.

(** The detail panel, [selectedBin && ...] (lines 183-191): the fill level
    of the selected bin, its latitude [coordinates[1].toFixed(6)] and
    longitude [coordinates[0].toFixed(6)], and its id. *)
Record BinDetails : Type := {
  detailFillLevel : number;
  detailLatitude : JS.text;
  detailLongitude : JS.text;
  detailBinId : string
}.

Definition renderBinDetails (s : State) : option BinDetails :=
  match selectedBin s with
  | Some selectedBin => Some {|
      detailFillLevel := Bin.fillLevel selectedBin;
      detailLatitude := JS.toFixed (snd (coordinates (Bin.location selectedBin))) 6;
      detailLongitude := JS.toFixed (fst (coordinates (Bin.location selectedBin))) 6;
      detailBinId := Bin._id selectedBin |}
  | None => None
  end.

(** The overlay [loading && <ActivityIndicator/>] (line 115) and the refresh
    button's [disabled={loading}] (line 175) read the one [loading] cell. *)
Definition loadingIndicatorShown (s : State) : bool := loading s.
Definition refreshDisabled (s : State) : bool := loading s.

(** *** The rest of the render tree *)

(** The literal [0.01]: the double nearest to it is
    [5764607523034235 * 2^-59]. *)
Definition lit_0_01 : number := S754_finite false 5764607523034235 (-59).

Module Region.
Record t : Type := {
  latitude : number;
  longitude : number;
  latitudeDelta : number;
  longitudeDelta : number
}.
End Region.

Record CircleProps : Type := {
  center : Coords;
  radius : number
}.

Record MapViewProps : Type := {
  initialRegion : Region.t;
  circle : CircleProps;
  markers : list MarkerProps
}.

(** [location && <MapView initialRegion=...> <Circle .../> markers </MapView>]
    (lines 122-155). *)
Definition renderMap (s : State) : option MapViewProps :=
  match location s with
  | Some location => Some {|
      initialRegion := {| Region.latitude := latitude location;
                          Region.longitude := longitude location;
                          Region.latitudeDelta := lit_0_01;
                          Region.longitudeDelta := lit_0_01 |};
      circle := {| center := location; radius := JS.lit 500 |};
      markers := map renderMarker (bins s) |}
  | None => None
  end.

Module Preview.
Record t : Type := {
  key : nat;
  uri : string
}.
End Preview.

(** [images.map((uri, idx) => <Image key={idx} source={{ uri }} />)]
    (lines 209-211). *)
Definition renderPreviews (images : list string) : list Preview.t :=
  map (fun p => {| Preview.key := fst p; Preview.uri := snd p |})
      (combine (seq 0 (List.length images)) images).

Record ReportModalProps : Type := {
  textValue : string;
  previews : list Preview.t
}.

(** The report modal, [reportVisible && ...] (lines 194-223). *)
Definition renderReportModal (s : State) : option ReportModalProps :=
  if reportVisible s then
    Some {| textValue := reportText s; previews := renderPreviews (images s) |}
  else None.

(** *** The remaining handlers, written inline in the JSX *)

Definition onDriverPress : M unit :=
  Alert_alert "Driver Section"
              (Some "Driver section functionality will be connected here.").
Definition onReportPress : M unit := setReportVisible true.
Definition onChangeText (text : string) : M unit := setReportText text.
Definition onCancel : M unit := setReportVisible false.

(** ** The screen as a machine

    What the user can do, and the handler each control is bound to in the
    render of state [s]; [None] when the control is not rendered or is
    disabled there.  A marker exists for each index of [bins] once the map is
    shown; the refresh button is disabled while [loading]; the text input and
    the pick, cancel and submit buttons live in the report modal. *)
Inductive Action : Type :=
| PressMarker (idx : nat)
| PressTruck
| PressDriver
| PressRefresh
| PressReport
| ChangeText (text : string)
| PressPickImages
| PressCancel
| PressSubmit.

Definition handlerOf (s : State) (a : Action) : option (M unit) :=
  match a with
  | PressMarker idx =>
      match location s, nth_error (bins s) idx with
      | Some _, Some bin => Some (onMarkerPress bin)
      | _, _ => None
      end
  | PressTruck => Some navigateToCollectorLogin
  | PressDriver => Some onDriverPress
  | PressRefresh => if refreshDisabled s then None else Some (onRefresh s)
  | PressReport => Some onReportPress
  | ChangeText text => if reportVisible s then Some (onChangeText text) else None
  | PressPickImages => if reportVisible s then Some (onPickImages s) else None
  | PressCancel => if reportVisible s then Some onCancel else None
  | PressSubmit => if reportVisible s then Some (onSubmit s) else None
  end.

(** One user action, its handler run to completion against [env]: the state
    reached and the effects performed. *)
Definition step (s : State) (a : Action) (env : Env) : State :=
  match handlerOf s a with
  | Some m => run m env s
  | None => s
  end.

Definition stepTrace (s : State) (a : Action) (env : Env) : list Event :=
  match handlerOf s a with
  | Some m => trace m env
  | None => []
  end.

(** A session: actions taken one after the other, each with the answers
    its handler gets from the collaborators. *)
Fixpoint session (s : State) (acts : list (Action * Env)) : State :=
  match acts with
  | [] => s
  | (a, env) :: acts => session (step s a env) acts
  end.

Fixpoint sessionTrace (s : State) (acts : list (Action * Env)) : list Event :=
  match acts with
  | [] => []
  | (a, env) :: acts => stepTrace s a env ++ sessionTrace (step s a env) acts
  end.

(** The screen after mounting (the initial load run from [mountState]
    against [env0]) and then a session. *)
Definition screenAfter (env0 : Env) (acts : list (Action * Env)) : State :=
  session (run initialLoad env0 mountState) acts.

(** The actions of the report form that edit the draft, and the actions on
    the map. *)
Definition editsDraft (a : Action) : bool :=
  match a with
  | ChangeText _ | PressPickImages | PressSubmit => true
  | _ => false
  end.

Definition actsOnMap (a : Action) : bool :=
  match a with
  | PressMarker _ | PressRefresh => true
  | _ => false
  end.

(** What a handler reports, to the console as an error or to the user as an
    alert, in order. *)
Definition reports (t : list Event) : list Event :=
  filter (fun e => match e with
                   | ConsoleError _ _ | AlertAlert _ _ => true
                   | _ => false
                   end) t.

(** The alerts among some effects, in order. *)
Definition alerts (t : list Event) : list Event :=
  filter (fun e => match e with AlertAlert _ _ => true | _ => false end) t.

Definition isSetLoading (e : Event) : bool :=
  match e with SetLoading _ => true | _ => false end.

Definition isGetBinsNearby (e : Event) : bool :=
  match e with GetBinsNearby _ _ _ => true | _ => false end.

(** How severe a marker colour is: green, yellow, amber, red. *)
Definition severity (color : string) : nat :=
  if String.eqb color red then 3
  else if String.eqb color amber then 2
  else if String.eqb color yellow then 1
  else 0.

(** ** Vocabulary for the properties *)

(** The three alerts the screen can raise. *)
Definition deniedAlert : Event :=
  AlertAlert "Permission to access location was denied" None.
Definition loadErrorAlert : Event :=
  AlertAlert "Error" (Some "Failed to load map data. Please try again.").
Definition successAlert : Event :=
  AlertAlert "Success" (Some "Issue reported successfully.").

(** The handler issued a [getBinsNearby] call and that call threw. *)
Definition fetchThrows {A} (m : M A) (env : Env) : Prop :=
  exists lat lon radius e,
    In (GetBinsNearby lat lon radius) (trace m env) /\
    binsNearbyAnswer env lat lon radius = Rejected e.

(** The handler issued a [getBinsNearby] call and it returned [bs]. *)
Definition fetchReturns {A} (m : M A) (env : Env) (bs : list Bin) : Prop :=
  exists lat lon radius,
    In (GetBinsNearby lat lon radius) (trace m env) /\
    binsNearbyAnswer env lat lon radius = Fulfilled bs.

(** The values written to the [loading] cell, in order. *)
Definition loadingWrites (t : list Event) : list bool :=
  flat_map (fun e => match e with SetLoading b => [b] | _ => [] end) t.

(** What the map shows for a fetched list [bs]: one marker per bin, in order,
    keyed by the bin's id and placed at latitude [coordinates[1]], longitude
    [coordinates[0]]. *)
Definition markersShow (bs : list Bin) (s : State) : Prop :=
  List.length (renderMarkers s) = List.length bs /\
  map key (renderMarkers s) = map Bin._id bs /\
  (NoDup (map Bin._id bs) <-> NoDup (map key (renderMarkers s))) /\
  forall i bin, nth_error bs i = Some bin ->
    exists m, nth_error (renderMarkers s) i = Some m /\
      key m = Bin._id bin /\
      latitude (coordinate m) = snd (coordinates (Bin.location bin)) /\
      longitude (coordinate m) = fst (coordinates (Bin.location bin)).



(** ** Sample data *)

Definition binA : Bin := {|
  Bin._id := "a";
  Bin.location := {| type := "Point"; coordinates := (JS.lit (-73), JS.lit 40) |};
  Bin.fillLevel := JS.lit 95
|}.

Definition binB : Bin := {|
  Bin._id := "b";
  Bin.location := {| type := "Point"; coordinates := (JS.lit (-74), JS.lit 41) |};
  Bin.fillLevel := JS.lit 40
|}.

Definition here : Coords := {| latitude := JS.lit 40; longitude := JS.lit (-73) |}.

Definition photo (u : string) : ImagePickerAsset :=
  {| uri := u; width := JS.lit 640; height := JS.lit 480 |}.

(** Permission granted, a position fix, two bins nearby, two photos picked. *)
Definition envGranted : Env := {|
  permissionsAnswer := Fulfilled {| status := "granted" |};
  positionAnswer := Fulfilled {| coords := here |};
  binsNearbyAnswer := fun _ _ _ => Fulfilled [binA; binB];
  pickerAnswer := Fulfilled (Picked [photo "file:///1.jpg"; photo "file:///2.jpg"])
|}.

(** Permission denied. *)
Definition envDenied : Env := {|
  permissionsAnswer := Fulfilled {| status := "denied" |};
  positionAnswer := Fulfilled {| coords := here |};
  binsNearbyAnswer := fun _ _ _ => Fulfilled [binA; binB];
  pickerAnswer := Fulfilled Canceled
|}.

(** Permission granted and a position fix, but the bins query fails; the
    picker yields three photos. *)
Definition envFetchFails : Env := {|
  permissionsAnswer := Fulfilled {| status := "granted" |};
  positionAnswer := Fulfilled {| coords := here |};
  binsNearbyAnswer := fun _ _ _ => Rejected "Network Error";
  pickerAnswer := Fulfilled (Picked [photo "file:///3.jpg"; photo "file:///4.jpg";
                                     photo "file:///5.jpg"])
|}.

(** The bins query now finds only [binB]. *)
Definition envOnlyB : Env := {|
  permissionsAnswer := Fulfilled {| status := "granted" |};
  positionAnswer := Fulfilled {| coords := here |};
  binsNearbyAnswer := fun _ _ _ => Fulfilled [binB];
  pickerAnswer := Fulfilled Canceled
|}.

(** The bins query answers the same bin twice. *)
Definition envDuplicate : Env := {|
  permissionsAnswer := Fulfilled {| status := "granted" |};
  positionAnswer := Fulfilled {| coords := here |};
  binsNearbyAnswer := fun _ _ _ => Fulfilled [binA; binA];
  pickerAnswer := Fulfilled Canceled
|}.

(** Permission denied and, were it asked, no position fix either. *)
Definition envDeniedNoFix : Env := {|
  permissionsAnswer := Fulfilled {| status := "denied" |};
  positionAnswer := Rejected "Location services are disabled";
  binsNearbyAnswer := fun _ _ _ => Rejected "Network Error";
  pickerAnswer := Fulfilled Canceled
|}.

(** The picker fails. *)
Definition envPickerFails : Env := {|
  permissionsAnswer := Fulfilled {| status := "granted" |};
  positionAnswer := Fulfilled {| coords := here |};
  binsNearbyAnswer := fun _ _ _ => Fulfilled [];
  pickerAnswer := Rejected "Missing camera roll permission"
|}.

(** The screen once the initial load has succeeded, and then with the marker
    of [binA] pressed. *)
Definition loadedState : State := run initialLoad envGranted mountState.
Definition selectedA : State := run (onMarkerPress binA) envGranted loadedState.

(** * Properties *)

(** ** Comparison of numbers *)

Section Comparison.

Lemma SFcompare_antisym (x y : number) :
  SFcompare y x = option_map CompOpp (SFcompare x y).
Proof.
  destruct x as [sx | sx | | sx mx ex], y as [sy | sy | | sy my ey];
    try reflexivity;
    try (destruct sx; reflexivity);
    try (destruct sy; reflexivity);
    try (destruct sx, sy; reflexivity).
  cbn [SFcompare option_map].
  rewrite (Z.compare_antisym ex ey).
  change (Pos.compare_cont Eq my mx) with (Pos.compare my mx).
  change (Pos.compare_cont Eq mx my) with (Pos.compare mx my).
  rewrite (Pos.compare_antisym mx my).
  destruct sx, sy, (Z.compare ex ey), (Pos.compare mx my); reflexivity.
Qed.

(** Away from NaN, [x >= y] is the negation of [x < y]. *)
Lemma ge_negb_lt (x y : number) :
  SFcompare x y <> None -> JS.ge x y = negb (JS.lt x y).
Proof.
  unfold JS.ge, JS.lt, SFleb, SFltb.
  rewrite (SFcompare_antisym x y).
  destruct (SFcompare x y) as [[ | | ] | ]; cbn; congruence.
Qed.

Lemma ge_not_NaN (x y : number) : JS.ge x y = true -> JS.isNaN x = false.
Proof. destruct x; cbn; try reflexivity. destruct y; discriminate. Qed.

Lemma lt_not_NaN (x y : number) : JS.lt x y = true -> JS.isNaN x = false.
Proof. destruct x; cbn; try reflexivity. discriminate. Qed.

Lemma compare_defined (x y : number) :
  JS.isNaN x = false -> JS.isNaN y = false -> SFcompare x y <> None.
Proof.
  destruct x as [sx | sx | | sx mx ex], y as [sy | sy | | sy my ey];
    cbn; discriminate.
Qed.

(** The thresholds are ordered: whatever is below one is below the next. *)
Lemma lit_50 : JS.lit 50 = S754_finite false 7036874417766400 (-47).
Proof. vm_compute. reflexivity. Qed.

Lemma lit_70 : JS.lit 70 = S754_finite false 4925812092436480 (-46).
Proof. vm_compute. reflexivity. Qed.

Lemma lit_90 : JS.lit 90 = S754_finite false 6333186975989760 (-46).
Proof. vm_compute. reflexivity. Qed.

(** Among positive finite numbers the order is that of the exponents,
    then of the mantissas; whatever is below one is below a larger one. *)
Lemma lt_finite_mono (m1 m2 : positive) (e1 e2 : Z) (f : number) :
  (e1 < e2 \/ (e1 = e2 /\ Z.pos m1 <= Z.pos m2))%Z ->
  JS.lt f (S754_finite false m1 e1) = true ->
  JS.lt f (S754_finite false m2 e2) = true.
Proof.
  intros Hle. unfold JS.lt, SFltb.
  destruct f as [s | s | | s m e]; cbn [SFcompare];
    try destruct s; try congruence.
  rewrite 2!Pos.compare_cont_spec. unfold Pos.switch_Eq.
  rewrite 2!Pos2Z.inj_compare.
  destruct (Z.compare_spec e e1), (Z.compare_spec e e2),
    (Z.compare_spec (Z.pos m) (Z.pos m1)), (Z.compare_spec (Z.pos m) (Z.pos m2));
    intros; try reflexivity; try discriminate; exfalso; lia.
Qed.

Lemma lt_50_70 (f : number) :
  JS.lt f (JS.lit 50) = true -> JS.lt f (JS.lit 70) = true.
Proof.
  rewrite lit_50, lit_70. apply lt_finite_mono. left. reflexivity.
Qed.

Lemma lt_70_90 (f : number) :
  JS.lt f (JS.lit 70) = true -> JS.lt f (JS.lit 90) = true.
Proof.
  rewrite lit_70, lit_90. apply lt_finite_mono. right. split; [reflexivity |].
  discriminate.
Qed.

Lemma isNaN_lit (z : Z) : z = 50%Z \/ z = 70%Z \/ z = 90%Z -> JS.isNaN (JS.lit z) = false.
Proof.
  intros [-> | [-> | ->]]; [rewrite lit_50 | rewrite lit_70 | rewrite lit_90];
    reflexivity.
Qed.

End Comparison.

(** ** The colour rule *)

Section ColourRule.

(** The function in terms of [<] alone, for a fill level that is a number. *)
Lemma getFillLevelColor_not_NaN (f : number) :
  JS.isNaN f = false ->
  getFillLevelColor f =
    if JS.lt f (JS.lit 50) then green
    else if JS.lt f (JS.lit 70) then yellow
    else if JS.lt f (JS.lit 90) then amber
    else red.
Proof.
  intros Hf. unfold getFillLevelColor.
  rewrite !(ge_negb_lt f) by (apply compare_defined; auto using isNaN_lit).
  pose proof (lt_50_70 f) as H57. pose proof (lt_70_90 f) as H79.
  destruct (JS.lt f (JS.lit 50)), (JS.lt f (JS.lit 70)), (JS.lt f (JS.lit 90));
    cbn; try reflexivity;
    try (specialize (H57 eq_refl); discriminate);
    try (specialize (H79 eq_refl); discriminate).
Qed.

Lemma getFillLevelColor_NaN : getFillLevelColor JS.NaN = green.
Proof. reflexivity. Qed.

Lemma isNaN_eq (f : number) : JS.isNaN f = true -> f = JS.NaN.
Proof. destruct f; cbn; intros; try discriminate; reflexivity. Qed.

End ColourRule.

(** C1, amended.  For every fill level [f]: the colour is red exactly when
    [f >= 90], amber exactly when [70 <= f < 90], yellow exactly when
    [50 <= f < 70], and green exactly when none of the tests [f >= 90],
    [f >= 70], [f >= 50] succeeds, that is when [f < 50] or [f] is NaN. *)
Theorem fill_level_color_rule (f : number) :
  (getFillLevelColor f = red <-> JS.ge f (JS.lit 90) = true) /\
  (getFillLevelColor f = amber <->
     JS.ge f (JS.lit 70) = true /\ JS.lt f (JS.lit 90) = true) /\
  (getFillLevelColor f = yellow <->
     JS.ge f (JS.lit 50) = true /\ JS.lt f (JS.lit 70) = true) /\
  (getFillLevelColor f = green <->
     JS.lt f (JS.lit 50) = true \/ JS.isNaN f = true).
Proof.
  destruct (JS.isNaN f) eqn:Hf.
  - apply isNaN_eq in Hf. subst f. rewrite getFillLevelColor_NaN.
    repeat split; intros; try discriminate; auto;
      repeat match goal with H : _ /\ _ |- _ => destruct H end; discriminate.
  - rewrite (getFillLevelColor_not_NaN f Hf).
    rewrite !(ge_negb_lt f) by (apply compare_defined; auto using isNaN_lit).
    pose proof (lt_50_70 f) as H57. pose proof (lt_70_90 f) as H79.
    destruct (JS.lt f (JS.lit 50)), (JS.lt f (JS.lit 70)), (JS.lt f (JS.lit 90));
      try (specialize (H57 eq_refl)); try (specialize (H79 eq_refl));
      try discriminate; cbn;
      repeat split; intros; try discriminate; auto;
      repeat match goal with
             | H : _ /\ _ |- _ => destruct H
             | H : _ \/ _ |- _ => destruct H
             end; discriminate.
Qed.

(** C1 as stated fails at NaN: the colour is green although [NaN < 50] is
    false. *)
Lemma fill_level_green_not_below_50 :
  ~ (getFillLevelColor JS.NaN = green <-> JS.lt JS.NaN (JS.lit 50) = true).
Proof.
  intros [H _]. specialize (H getFillLevelColor_NaN). discriminate H.
Qed.

(** ** Symbolic execution of the handlers

    Each handler run against an arbitrary environment: the effects it
    performs and how it completes, by cases on how the awaited calls settle. *)

Section Execution.

Variable env : Env.

Lemma initialLoad_run :
  initialLoad env =
    match permissionsAnswer env with
    | Rejected e =>
        ([SetLoading true; RequestForegroundPermissions;
          ConsoleError "Error loading map data:" e; loadErrorAlert;
          SetLoading false], Normal tt)
    | Fulfilled response =>
        if String.eqb (status response) "granted" then
          match positionAnswer env with
          | Rejected e =>
              ([SetLoading true; RequestForegroundPermissions; GetCurrentPosition;
                ConsoleError "Error loading map data:" e; loadErrorAlert;
                SetLoading false], Normal tt)
          | Fulfilled pos =>
              let lat := latitude (coords pos) in
              let lon := longitude (coords pos) in
              match binsNearbyAnswer env lat lon (JS.lit 500) with
              | Rejected e =>
                  ([SetLoading true; RequestForegroundPermissions; GetCurrentPosition;
                    SetLocation {| latitude := lat; longitude := lon |};
                    GetBinsNearby lat lon (JS.lit 500);
                    ConsoleError "Error loading map data:" e; loadErrorAlert;
                    SetLoading false], Normal tt)
              | Fulfilled binsNearby =>
                  ([SetLoading true; RequestForegroundPermissions; GetCurrentPosition;
                    SetLocation {| latitude := lat; longitude := lon |};
                    GetBinsNearby lat lon (JS.lit 500);
                    SetBins binsNearby;
                    SetLoading false], Normal tt)
              end
          end
        else
          ([SetLoading true; RequestForegroundPermissions; deniedAlert;
            SetLoading false; SetLoading false], Return)
    end.
Proof.
  unfold initialLoad, try_catch_finally, bind, requestForegroundPermissionsAsync,
    getCurrentPositionAsync, getBinsNearby, await, setLoading, setLocation,
    setBins, Alert_alert, console_error, emit, return_, ret.
  destruct (permissionsAnswer env) as [response | e]; [| reflexivity].
  destruct (String.eqb (status response) "granted"); [| reflexivity].
  destruct (positionAnswer env) as [pos | e]; [| reflexivity].
  cbv zeta.
  destruct (binsNearbyAnswer env _ _ _) as [binsNearby | e]; reflexivity.
Qed.

Lemma refreshBins_run (loc : Coords) :
  refreshBins (Some loc) env =
    match binsNearbyAnswer env (latitude loc) (longitude loc) (JS.lit 500) with
    | Rejected e =>
        ([SetLoading true;
          GetBinsNearby (latitude loc) (longitude loc) (JS.lit 500);
          ConsoleError "Error refreshing bins:" e;
          SetLoading false], Normal tt)
    | Fulfilled binsNearby =>
        ([SetLoading true;
          GetBinsNearby (latitude loc) (longitude loc) (JS.lit 500);
          SetBins binsNearby;
          SetLoading false], Normal tt)
    end.
Proof.
  unfold refreshBins, try_catch_finally, bind, getBinsNearby, await, setLoading,
    setBins, console_error, emit.
  destruct (binsNearbyAnswer env _ _ _) as [binsNearby | e]; reflexivity.
Qed.

Lemma refreshBins_none : refreshBins None env = ([], Return).
Proof. reflexivity. Qed.

Lemma pickImages_run (imgs : list string) :
  pickImages imgs env =
    match pickerAnswer env with
    | Fulfilled (Picked assets) =>
        ([LaunchImageLibrary; SetImages (imgs ++ map uri assets)], Normal tt)
    | Fulfilled Canceled => ([LaunchImageLibrary], Normal tt)
    | Rejected e => ([LaunchImageLibrary], Throw e)
    end.
Proof.
  unfold pickImages, bind, launchImageLibraryAsync, await, setImages, emit, ret.
  destruct (pickerAnswer env) as [[ | assets] | e]; reflexivity.
Qed.

Lemma submitReport_run (text : string) (imgs : list string) :
  submitReport text imgs env =
    ([ConsoleLog "Report Submitted:" text imgs; SetReportVisible false;
      SetReportText ""; SetImages []; successAlert], Normal tt).
Proof. reflexivity. Qed.

End Execution.

(** ** Proof steps shared below *)

(** Case analysis on how the awaited calls of the initial load settle. *)
Ltac initialLoad_cases env :=
  unfold run, trace; rewrite ?initialLoad_run;
  let e := fresh "e" in
  destruct (permissionsAnswer env) as [?response | e] eqn:?Hperm;
  [ destruct (String.eqb (status response) "granted") eqn:?Hstatus;
    [ destruct (positionAnswer env) as [?pos | e] eqn:?Hpos;
      [ cbv zeta;
        destruct (binsNearbyAnswer env (latitude (coords pos))
                    (longitude (coords pos)) (JS.lit 500))
          as [?fetched | e] eqn:?Hfetch
      | ]
    | ]
  | ].

Ltac refreshBins_cases env loc :=
  unfold run, trace; rewrite ?refreshBins_run;
  let e := fresh "e" in
  destruct (binsNearbyAnswer env (latitude loc) (longitude loc) (JS.lit 500))
    as [?fetched | e] eqn:?Hfetch.

Ltac find_in H :=
  cbn [In fst] in H;
  repeat (destruct H as [H | H]; [try discriminate H |]);
  try contradiction.

(** Follow a list of at most eight effects position by position. *)
Ltac walk_trace :=
  do 9 (match goal with
        | n : nat |- _ =>
            destruct n;
            [ cbn [nth_error firstn applyAll fold_left apply loading];
              let He := fresh in let Hset := fresh in
              intros ? He Hset; try discriminate He;
              injection He as <-; try discriminate Hset; reflexivity
            | ]
        end);
  cbn [nth_error]; intros; discriminate.


(** ** Initial load and refresh *)

Section LoadAndRefresh.

Variable env : Env.

Lemma initialLoad_denied (response : PermissionResponse) :
  permissionsAnswer env = Fulfilled response ->
  status response <> "granted" ->
  initialLoad env =
    ([SetLoading true; RequestForegroundPermissions; deniedAlert;
      SetLoading false; SetLoading false], Return).
Proof.
  intros Hperm Hstatus. rewrite initialLoad_run, Hperm.
  apply String.eqb_neq in Hstatus. rewrite Hstatus. reflexivity.
Qed.

(** Every run of the initial load ends by writing [false] to [loading]. *)
Lemma initialLoad_loading (s : State) : loading (run initialLoad env s) = false.
Proof.
  unfold run, trace. rewrite initialLoad_run.
  destruct (permissionsAnswer env) as [response | e]; [| reflexivity].
  destruct (String.eqb (status response) "granted"); [| reflexivity].
  destruct (positionAnswer env) as [pos | e]; [| reflexivity].
  cbv zeta. destruct (binsNearbyAnswer env _ _ _); reflexivity.
Qed.

Lemma refreshBins_loading (s : State) (loc : Coords) :
  loading (run (refreshBins (Some loc)) env s) = false.
Proof.
  unfold run, trace. rewrite refreshBins_run.
  destruct (binsNearbyAnswer env _ _ _); reflexivity.
Qed.

End LoadAndRefresh.

(** C2.  When the permission request settles with a status other than
    "granted", the initial load leaves the bin list as it was (empty, from the
    mount state), issues no [getBinsNearby] call, obtains no position, raises
    the permission alert, and ends with [loading] false. *)
Theorem permission_denied_stops_initial_load
    (env : Env) (s : State) (response : PermissionResponse) :
  permissionsAnswer env = Fulfilled response ->
  status response <> "granted" ->
  bins (run initialLoad env s) = bins s /\
  bins (run initialLoad env mountState) = [] /\
  (forall lat lon radius,
      ~ In (GetBinsNearby lat lon radius) (trace initialLoad env)) /\
  ~ In GetCurrentPosition (trace initialLoad env) /\
  location (run initialLoad env s) = location s /\
  In deniedAlert (trace initialLoad env) /\
  loading (run initialLoad env s) = false.
Proof.
  intros Hperm Hstatus. unfold run, trace.
  rewrite (initialLoad_denied env response Hperm Hstatus). cbn.
  repeat split; auto.
  - intros lat lon radius H. unfold deniedAlert in H.
    repeat (destruct H as [H | H]; [discriminate H |]). exact H.
  - intros H. unfold deniedAlert in H.
    repeat (destruct H as [H | H]; [discriminate H |]). exact H.
Qed.

Lemma permission_denied_stops_initial_load_witness :
  bins (run initialLoad envDenied mountState) = [] /\
  loading (run initialLoad envDenied mountState) = false.
Proof.
  pose proof (permission_denied_stops_initial_load envDenied mountState
                {| status := "denied" |} eq_refl) as H.
  destruct H as (_ & Hbins & _ & _ & _ & _ & Hloading).
  - discriminate.
  - split; [exact Hbins | exact Hloading].
Defined.

(** C3.  A fetch whose [getBinsNearby] call throws, in the initial load or in
    a refresh, leaves the bin list exactly as it was, whatever it was. *)
Theorem failed_fetch_keeps_bins (env : Env) (s : State) :
  (fetchThrows initialLoad env -> bins (run initialLoad env s) = bins s) /\
  (fetchThrows (onRefresh s) env -> bins (run (onRefresh s) env s) = bins s).
Proof.
  unfold fetchThrows, run, trace, onRefresh. split.
  - rewrite initialLoad_run.
    destruct (permissionsAnswer env) as [response | e0]; [| reflexivity].
    destruct (String.eqb (status response) "granted"); [| reflexivity].
    destruct (positionAnswer env) as [pos | e0]; [| reflexivity].
    cbv zeta.
    destruct (binsNearbyAnswer env _ _ _) as [bs | e0] eqn:Hans; [| reflexivity].
    intros (lat & lon & radius & e & Hin & Hrej). exfalso.
    cbn [In] in Hin.
    repeat (destruct Hin as [Hin | Hin]; [try discriminate Hin |]); [| exact Hin].
    congruence.
  - destruct (location s) as [loc |]; [| reflexivity].
    rewrite refreshBins_run.
    destruct (binsNearbyAnswer env _ _ _) as [bs | e0] eqn:Hans; [| reflexivity].
    intros (lat & lon & radius & e & Hin & Hrej). exfalso.
    cbn [In] in Hin.
    repeat (destruct Hin as [Hin | Hin]; [try discriminate Hin |]); [| exact Hin].
    congruence.
Qed.

Lemma failed_fetch_keeps_bins_witness :
  bins (run initialLoad envFetchFails loadedState) = [binA; binB] /\
  bins (run (onRefresh loadedState) envFetchFails loadedState) = [binA; binB].
Proof.
  destruct (failed_fetch_keeps_bins envFetchFails loadedState) as [Hinit Hrefresh].
  split.
  - apply Hinit.
    exists (JS.lit 40), (JS.lit (-73)), (JS.lit 500), "Network Error".
    split; [cbn; tauto | reflexivity].
  - apply Hrefresh.
    exists (JS.lit 40), (JS.lit (-73)), (JS.lit 500), "Network Error".
    split; [cbn; tauto | reflexivity].
Defined.

(** C4.  A refresh invoked while no location is set does nothing: it performs
    no effect at all, so the state (the bin list in particular) is unchanged,
    no [getBinsNearby] call is issued and [loading] is not written. *)
Theorem refresh_without_location_is_noop (env : Env) (s : State) :
  location s = None ->
  trace (onRefresh s) env = [] /\
  run (onRefresh s) env s = s /\
  bins (run (onRefresh s) env s) = bins s /\
  (forall lat lon radius,
      ~ In (GetBinsNearby lat lon radius) (trace (onRefresh s) env)) /\
  (forall b, ~ In (SetLoading b) (trace (onRefresh s) env)) /\
  loading (run (onRefresh s) env s) = loading s.
Proof.
  intros Hloc. unfold run, trace, onRefresh. rewrite Hloc, refreshBins_none.
  cbn. repeat split; auto.
Qed.

Lemma refresh_without_location_is_noop_witness :
  run (onRefresh mountState) envGranted mountState = mountState.
Proof.
  exact (proj1 (proj2 (refresh_without_location_is_noop envGranted mountState eq_refl))).
Defined.

(** C5.  The initial load always ends with [loading] false: on success, on
    a denied permission, and when any awaited step throws.  So does every
    refresh that issues its fetch (a location is set), whether the fetch succeeds or
    throws; a refresh without a location writes nothing, and the refresh
    button is disabled while [loading] is true (line 175), so [loading] is
    false after it as well. *)
Theorem loading_cleared_on_completion (env : Env) (s : State) :
  loading (run initialLoad env s) = false /\
  (location s <> None -> loading (run (onRefresh s) env s) = false) /\
  (refreshDisabled s = false -> loading (run (onRefresh s) env s) = false).
Proof.
  split; [apply initialLoad_loading |].
  unfold onRefresh, refreshDisabled.
  destruct (location s) as [loc |]; split; intros H;
    try apply refreshBins_loading.
  - congruence.
  - exact H.
Qed.

Lemma loading_cleared_on_completion_witness :
  loading (run initialLoad envFetchFails mountState) = false /\
  loading (run (onRefresh loadedState) envFetchFails loadedState) = false /\
  loading (run (onRefresh (run initialLoad envDenied mountState)) envGranted
             (run initialLoad envDenied mountState)) = false.
Proof.
  split; [| split].
  - exact (proj1 (loading_cleared_on_completion envFetchFails mountState)).
  - apply (proj1 (proj2 (loading_cleared_on_completion envFetchFails loadedState))).
    discriminate.
  - apply (proj2 (proj2 (loading_cleared_on_completion envGranted
                           (run initialLoad envDenied mountState)))).
    reflexivity.
Defined.

(** ** The report draft *)

Section Draft.

Variable env : Env.

Lemma pickImages_picked (s : State) (assets : list ImagePickerAsset) :
  pickerAnswer env = Fulfilled (Picked assets) ->
  images (run (onPickImages s) env s) = images s ++ map uri assets.
Proof.
  intros H. unfold run, trace, onPickImages. rewrite pickImages_run, H.
  reflexivity.
Qed.

Lemma pickImages_canceled (s : State) :
  pickerAnswer env = Fulfilled Canceled ->
  run (onPickImages s) env s = s.
Proof.
  intros H. unfold run, trace, onPickImages. rewrite pickImages_run, H.
  reflexivity.
Qed.

End Draft.

(** C6.  A pick that is not cancelled appends the picked URIs, in order, after
    the images already in the draft; two picks in a row give the old images,
    then the first pick, then the second (2 then 3 images make 5); a
    cancelled pick leaves the state, and so the image list, unchanged. *)
Theorem pick_images_appends (s : State) :
  (forall env assets,
      pickerAnswer env = Fulfilled (Picked assets) ->
      images (run (onPickImages s) env s) = images s ++ map uri assets) /\
  (forall env1 env2 first second,
      pickerAnswer env1 = Fulfilled (Picked first) ->
      pickerAnswer env2 = Fulfilled (Picked second) ->
      let s1 := run (onPickImages s) env1 s in
      let s2 := run (onPickImages s1) env2 s1 in
      images s2 = images s ++ map uri first ++ map uri second /\
      List.length (images s2) =
        (List.length (images s) + List.length first + List.length second)%nat) /\
  (forall env,
      pickerAnswer env = Fulfilled Canceled ->
      run (onPickImages s) env s = s /\
      images (run (onPickImages s) env s) = images s).
Proof.
  split; [| split].
  - intros env assets H. exact (pickImages_picked env s assets H).
  - intros env1 env2 first second H1 H2 s1 s2. subst s1 s2.
    rewrite (pickImages_picked env2 _ second H2).
    rewrite (pickImages_picked env1 s first H1).
    rewrite <- app_assoc. split; [reflexivity |].
    rewrite !length_app, !length_map. lia.
  - intros env H. rewrite (pickImages_canceled env s H). split; reflexivity.
Qed.

Lemma pick_images_appends_witness :
  images (run (onPickImages (run (onPickImages mountState) envGranted mountState))
              envFetchFails
              (run (onPickImages mountState) envGranted mountState)) =
    ["file:///1.jpg"; "file:///2.jpg"; "file:///3.jpg"; "file:///4.jpg";
     "file:///5.jpg"] /\
  run (onPickImages loadedState) envDenied loadedState = loadedState.
Proof.
  destruct (pick_images_appends mountState) as (_ & Htwice & _).
  destruct (pick_images_appends loadedState) as (_ & _ & Hcancel).
  split.
  - exact (proj1 (Htwice envGranted envFetchFails _ _ eq_refl eq_refl)).
  - exact (proj1 (Hcancel envDenied eq_refl)).
Defined.

(** C7.  Whatever the draft holds (any text, any images, both possibly
    empty), submitting sets the report text to the empty string, the image list
    to the empty list and the modal-visible flag to false, and raises the
    success alert; the other cells are untouched. *)
Theorem submit_clears_draft (env : Env) (s : State) :
  reportText (run (onSubmit s) env s) = "" /\
  images (run (onSubmit s) env s) = [] /\
  reportVisible (run (onSubmit s) env s) = false /\
  In successAlert (trace (onSubmit s) env) /\
  outcome (onSubmit s) env = Normal tt /\
  location (run (onSubmit s) env s) = location s /\
  bins (run (onSubmit s) env s) = bins s /\
  selectedBin (run (onSubmit s) env s) = selectedBin s /\
  loading (run (onSubmit s) env s) = loading s.
Proof.
  unfold run, trace, outcome, onSubmit. rewrite submitReport_run. cbn.
  repeat split; auto 10.
Qed.

(** ** Markers and the detail panel *)

Section Markers.

Lemma key_renderMarker (bs : list Bin) :
  map key (map renderMarker bs) = map Bin._id bs.
Proof. rewrite map_map. reflexivity. Qed.

(** With a location and the bins [bs] in the state, the map shows [bs]. *)
Lemma markersShow_intro (bs : list Bin) (s : State) :
  location s <> None -> bins s = bs -> markersShow bs s.
Proof.
  intros Hloc Hbins. unfold markersShow, renderMarkers.
  destruct (location s) as [loc |]; [| congruence]. rewrite Hbins.
  rewrite key_renderMarker, length_map.
  repeat split; auto.
  intros i bin Hi. exists (renderMarker bin). split.
  - apply map_nth_error. exact Hi.
  - repeat split; reflexivity.
Qed.

Lemma markers_shown_keys (bs : list Bin) (s : State) :
  location s <> None -> bins s = bs ->
  renderMarkers s = map renderMarker bs /\
  map key (renderMarkers s) = map Bin._id bs.
Proof.
  intros Hloc Hbins. unfold renderMarkers.
  destruct (location s); [| congruence].
  rewrite Hbins, key_renderMarker. split; reflexivity.
Qed.

Variable env : Env.

(** A fetch that returned [bs] leaves a location and exactly [bs] in the
    state, in the initial load and in a refresh. *)
Lemma initialLoad_fetched (s : State) (bs : list Bin) :
  fetchReturns initialLoad env bs ->
  location (run initialLoad env s) <> None /\ bins (run initialLoad env s) = bs.
Proof.
  unfold fetchReturns, run, trace. rewrite initialLoad_run.
  intros (lat & lon & radius & Hin & Hans). revert Hin.
  destruct (permissionsAnswer env) as [response | e0];
    [| cbn; intros Hin; exfalso; intuition discriminate].
  destruct (String.eqb (status response) "granted");
    [| cbn; intros Hin; exfalso; intuition discriminate].
  destruct (positionAnswer env) as [pos | e0];
    [| cbn; intros Hin; exfalso; intuition discriminate].
  cbv zeta.
  destruct (binsNearbyAnswer env (latitude (coords pos)) (longitude (coords pos))
              (JS.lit 500)) as [bs' | e0] eqn:Hans'; cbn [fst In];
    intros Hin;
    repeat (destruct Hin as [Hin | Hin]; [try discriminate Hin |]);
    try contradiction; try congruence.
  assert (bs' = bs) by congruence. subst bs'.
  split; [discriminate | reflexivity].
Qed.

Lemma refreshBins_fetched (s : State) (bs : list Bin) :
  fetchReturns (onRefresh s) env bs ->
  location (run (onRefresh s) env s) <> None /\
  bins (run (onRefresh s) env s) = bs /\
  selectedBin (run (onRefresh s) env s) = selectedBin s.
Proof.
  unfold fetchReturns, run, trace, onRefresh.
  intros (lat & lon & radius & Hin & Hans). revert Hin.
  destruct (location s) as [loc |] eqn:Hloc; [| intros []].
  rewrite refreshBins_run.
  destruct (binsNearbyAnswer env (latitude loc) (longitude loc) (JS.lit 500))
    as [bs' | e0] eqn:Hans'; cbn [fst In];
    intros Hin;
    repeat (destruct Hin as [Hin | Hin]; [try discriminate Hin |]);
    try contradiction; try congruence.
  assert (bs' = bs) by congruence. subst bs'.
  cbn. rewrite Hloc. repeat split. discriminate.
Qed.

End Markers.

(** C8, amended.  After a fetch that returned the [N] bins [bs], in the
    initial load or in a refresh, the map shows exactly [N] markers, the i-th
    keyed by the id of the i-th bin and placed at latitude [coordinates[1]]
    and longitude [coordinates[0]] of that bin; the keys are pairwise distinct
    exactly when the fetched ids are, the fetched list being rendered as it
    comes. *)
Theorem markers_after_successful_fetch (env : Env) (s : State) (bs : list Bin) :
  (fetchReturns initialLoad env bs -> markersShow bs (run initialLoad env s)) /\
  (fetchReturns (onRefresh s) env bs -> markersShow bs (run (onRefresh s) env s)).
Proof.
  split; intros H.
  - destruct (initialLoad_fetched env s bs H) as [Hloc Hbins].
    apply markersShow_intro; assumption.
  - destruct (refreshBins_fetched env s bs H) as (Hloc & Hbins & _).
    apply markersShow_intro; assumption.
Qed.

Lemma markers_after_successful_fetch_witness :
  markersShow [binA; binB] (run initialLoad envGranted mountState) /\
  markersShow [binB] (run (onRefresh loadedState) envOnlyB loadedState).
Proof.
  split.
  - apply (proj1 (markers_after_successful_fetch envGranted mountState [binA; binB])).
    exists (JS.lit 40), (JS.lit (-73)), (JS.lit 500).
    split; [cbn; tauto | reflexivity].
  - apply (proj2 (markers_after_successful_fetch envOnlyB loadedState [binB])).
    exists (JS.lit 40), (JS.lit (-73)), (JS.lit 500).
    split; [cbn; tauto | reflexivity].
Defined.

(** C8 as stated fails: a fetch that returns the same bin twice succeeds, and
    the two markers it gives carry the same key. *)
Lemma markers_keys_not_unique :
  fetchReturns initialLoad envDuplicate [binA; binA] /\
  List.length (renderMarkers (run initialLoad envDuplicate mountState)) = 2%nat /\
  ~ NoDup (map key (renderMarkers (run initialLoad envDuplicate mountState))).
Proof.
  split; [| split].
  - exists (JS.lit 40), (JS.lit (-73)), (JS.lit 500).
    split; [cbn; tauto | reflexivity].
  - reflexivity.
  - change (map key (renderMarkers (run initialLoad envDuplicate mountState)))
      with ["a"; "a"].
    intros H. inversion H as [| x l Hnotin _]. apply Hnotin. left. reflexivity.
Qed.

(** ** One loading flag *)




(** ** Selection survives a refresh *)

(** C10.  A refresh whose fetch succeeds replaces the bin list by the fetched
    one and leaves the selected bin alone: when the fetched list does not
    hold the selected bin's id, the detail panel still shows that bin (its
    fill level, its coordinates to six decimals and its id) although no bin
    and no marker with its id remains. *)
Theorem refresh_keeps_selection
    (env : Env) (s : State) (selected : Bin) (bs : list Bin) :
  selectedBin s = Some selected ->
  fetchReturns (onRefresh s) env bs ->
  ~ In (Bin._id selected) (map Bin._id bs) ->
  bins (run (onRefresh s) env s) = bs /\
  selectedBin (run (onRefresh s) env s) = Some selected /\
  renderBinDetails (run (onRefresh s) env s) = renderBinDetails s /\
  renderBinDetails (run (onRefresh s) env s) =
    Some {| detailFillLevel := Bin.fillLevel selected;
            detailLatitude := JS.toFixed (snd (coordinates (Bin.location selected))) 6;
            detailLongitude := JS.toFixed (fst (coordinates (Bin.location selected))) 6;
            detailBinId := Bin._id selected |} /\
  ~ In selected (bins (run (onRefresh s) env s)) /\
  ~ In (Bin._id selected) (map key (renderMarkers (run (onRefresh s) env s))).
Proof.
  intros Hsel Hfetch Hid.
  destruct (refreshBins_fetched env s bs Hfetch) as (Hloc & Hbins & Hsel').
  pose proof (proj2 (markers_shown_keys bs _ Hloc Hbins)) as Hkeys.
  unfold renderBinDetails. rewrite Hsel', Hsel, Hbins, Hkeys.
  repeat split; auto.
  intros Hin. apply Hid. apply in_map. exact Hin.
Qed.

Lemma refresh_keeps_selection_witness :
  bins (run (onRefresh selectedA) envOnlyB selectedA) = [binB] /\
  selectedBin (run (onRefresh selectedA) envOnlyB selectedA) = Some binA.
Proof.
  destruct (refresh_keeps_selection envOnlyB selectedA binA [binB] eq_refl)
    as (Hbins & Hsel & _).
  - exists (JS.lit 40), (JS.lit (-73)), (JS.lit 500).
    split; [cbn; tauto | reflexivity].
  - cbn. intros [H | []]. discriminate H.
  - split; [exact Hbins | exact Hsel].
Defined.

(** ** The loaded screen, end to end *)

(** With bins at fill levels 95 and 40 loaded, the markers are red and green,
    and pressing the first shows its details. *)
Example loaded_screen_markers :
  map key (renderMarkers loadedState) = ["a"; "b"] /\
  map backgroundColor (renderMarkers loadedState) = [red; green] /\
  option_map detailBinId (renderBinDetails selectedA) = Some "a" /\
  option_map detailFillLevel (renderBinDetails selectedA) = Some (JS.lit 95) /\
  option_map detailLatitude (renderBinDetails selectedA) =
    Some (JS.Str "40.000000") /\
  option_map detailLongitude (renderBinDetails selectedA) =
    Some (JS.Str "-73.000000").
Proof. vm_compute. repeat split; reflexivity. Qed.

(** ** [toFixed] on a few numbers

    [40.0000004], [-73.001], [-0.0000001] and [-0] at six decimals, [2.5] and
    [1.005] where the nearest decimal is decided by the binary value, and
    [10^21], from where on the language uses [Number::toString]. *)
Example toFixed_examples :
  JS.toFixed (S754_finite false 5629499590508115 (-47)) 6 = JS.Str "40.000000" /\
  JS.toFixed (S754_finite true 5136988693713650 (-46)) 6 = JS.Str "-73.001000" /\
  JS.toFixed (S754_finite true 7555786372591432 (-76)) 6 = JS.Str "-0.000000" /\
  JS.toFixed (S754_zero true) 6 = JS.Str "0.000000" /\
  JS.toFixed (S754_finite false 5629499534213120 (-51)) 0 = JS.Str "3" /\
  JS.toFixed (S754_finite false 4526117625507348 (-52)) 2 = JS.Str "1.00" /\
  JS.toFixed JS.NaN 6 = JS.Str "NaN" /\
  JS.toFixed (JS.lit (10 ^ 21)) 6 = JS.ToString (JS.lit (10 ^ 21)).
Proof. vm_compute. repeat split; reflexivity. Qed.

(** * Further properties *)

(** ** The colour rule is monotone *)

Section ColourMonotone.

(** Above a positive finite threshold, and whatever is larger is above it
    too. *)
Lemma ge_finite_upward (mc : positive) (ec : Z) (f g : number) :
  JS.lt f g = true ->
  JS.ge f (S754_finite false mc ec) = true ->
  JS.ge g (S754_finite false mc ec) = true.
Proof.
  unfold JS.lt, JS.ge, SFltb, SFleb.
  destruct f as [sf | sf | | sf mf ef]; cbn [SFcompare];
    try destruct sf; try discriminate;
    destruct g as [sg | sg | | sg mg eg]; cbn [SFcompare];
    try destruct sg; try discriminate; try reflexivity.
  rewrite !Pos.compare_cont_spec. unfold Pos.switch_Eq.
  rewrite !Pos2Z.inj_compare.
  destruct (Z.compare_spec ef eg), (Z.compare_spec ec ef), (Z.compare_spec ec eg),
    (Z.compare_spec (Z.pos mf) (Z.pos mg)), (Z.compare_spec (Z.pos mc) (Z.pos mf)),
    (Z.compare_spec (Z.pos mc) (Z.pos mg));
    intros; try reflexivity; try discriminate; exfalso; lia.
Qed.

Lemma ge_lit_upward (z : Z) (f g : number) :
  z = 50%Z \/ z = 70%Z \/ z = 90%Z ->
  JS.lt f g = true -> JS.ge f (JS.lit z) = true -> JS.ge g (JS.lit z) = true.
Proof.
  intros [-> | [-> | ->]]; [rewrite lit_50 | rewrite lit_70 | rewrite lit_90];
    apply ge_finite_upward.
Qed.

End ColourMonotone.

(** X1.  The colour never gets milder as the fill level grows: when [f < g],
    the colour of [g] is at least as severe (green, yellow, amber, red) as
    the colour of [f]. *)
Theorem fill_level_color_monotone (f g : number) :
  JS.lt f g = true ->
  (severity (getFillLevelColor f) <= severity (getFillLevelColor g))%nat.
Proof.
  intros Hlt.
  pose proof (ge_lit_upward 90 f g (or_intror (or_intror eq_refl)) Hlt) as H90.
  pose proof (ge_lit_upward 70 f g (or_intror (or_introl eq_refl)) Hlt) as H70.
  pose proof (ge_lit_upward 50 f g (or_introl eq_refl) Hlt) as H50.
  unfold getFillLevelColor.
  destruct (JS.ge f (JS.lit 90));
    [rewrite (H90 eq_refl); cbn; lia |].
  destruct (JS.ge f (JS.lit 70));
    [rewrite (H70 eq_refl); destruct (JS.ge g (JS.lit 90)); cbn; lia |].
  destruct (JS.ge f (JS.lit 50));
    [rewrite (H50 eq_refl);
     destruct (JS.ge g (JS.lit 90)), (JS.ge g (JS.lit 70)); cbn; lia |].
  cbn. lia.
Qed.

Lemma fill_level_color_monotone_witness :
  (severity (getFillLevelColor (JS.lit 40)) <=
   severity (getFillLevelColor (JS.lit 95)))%nat.
Proof.
  apply (fill_level_color_monotone (JS.lit 40) (JS.lit 95)).
  vm_compute. reflexivity.
Defined.

(** ** Sessions *)

Section Sessions.

(** What holds before a session and is kept by every action holds after it. *)
Lemma session_invariant (P : State -> Prop) :
  (forall s a env, P s -> P (step s a env)) ->
  forall acts s, P s -> P (session s acts).
Proof.
  intros Hstep acts. induction acts as [| [a env] acts IH]; intros s Hs.
  - exact Hs.
  - cbn [session]. apply IH, Hstep, Hs.
Qed.

(** The effects of one action, by cases: the handler runs of the file, each
    reduced to its list of effects. *)
Lemma stepTrace_cases (s : State) (a : Action) (env : Env) :
  stepTrace s a env = [] \/
  (exists bin, stepTrace s a env = [SetSelectedBin bin] /\
               location s <> None /\ In bin (bins s)) \/
  stepTrace s a env = [Navigate "CollectorLogin"] \/
  stepTrace s a env =
    [AlertAlert "Driver Section"
       (Some "Driver section functionality will be connected here.")] \/
  (exists loc, location s = Some loc /\ loading s = false /\
               stepTrace s a env = trace (refreshBins (Some loc)) env) \/
  stepTrace s a env = [SetReportVisible true] \/
  (exists text, stepTrace s a env = [SetReportText text]) \/
  stepTrace s a env = trace (pickImages (images s)) env \/
  stepTrace s a env = [SetReportVisible false] \/
  stepTrace s a env = trace (submitReport (reportText s) (images s)) env.
Proof.
  unfold stepTrace, handlerOf, refreshDisabled, onRefresh, onPickImages, onSubmit.
  destruct a as [idx | | | | | text | | | ].
  - destruct (location s) as [loc |]; [| left; reflexivity].
    destruct (nth_error (bins s) idx) as [bin |] eqn:Hidx; [| left; reflexivity].
    right; left. exists bin. repeat split; [discriminate |].
    eapply nth_error_In; eassumption.
  - right; right; left. reflexivity.
  - right; right; right; left. reflexivity.
  - destruct (loading s) eqn:Hloading; [left; reflexivity |].
    destruct (location s) as [loc |] eqn:Hloc; [| left; reflexivity].
    right; right; right; right; left. exists loc. repeat split.
  - do 5 right; left. reflexivity.
  - destruct (reportVisible s); [| left; reflexivity].
    do 6 right; left. exists text. reflexivity.
  - destruct (reportVisible s); [| left; reflexivity]. do 7 right; left. reflexivity.
  - destruct (reportVisible s); [| left; reflexivity]. do 8 right; left. reflexivity.
  - destruct (reportVisible s); [| left; reflexivity]. do 9 right. reflexivity.
Qed.

Lemma step_stepTrace (s : State) (a : Action) (env : Env) :
  step s a env = applyAll s (stepTrace s a env).
Proof.
  unfold step, stepTrace. destruct (handlerOf s a); reflexivity.
Qed.

End Sessions.

(** Case analysis on one action: the effects are replaced by the explicit
    list of each handler run. *)
Ltac step_effects s a env :=
  let H := fresh "Heffects" in
  destruct (stepTrace_cases s a env)
    as [H | [(?bin & H & ?Hloc & ?Hbin) | [H | [H | [(?loc & ?Hloc & ?Hidle & H) |
        [H | [(?text & H) | [H | [H | H]]]]]]]]];
  rewrite H; unfold trace;
  rewrite ?refreshBins_run, ?pickImages_run, ?submitReport_run;
  try match goal with
      | |- context [binsNearbyAnswer env ?x ?y ?z] =>
          destruct (binsNearbyAnswer env x y z) as [?bs | ?e]
      | |- context [pickerAnswer env] =>
          destruct (pickerAnswer env) as [[| ?assets] | ?e]
      end.

Section Invariants.

Lemma step_keeps_idle (s : State) (a : Action) (env : Env) :
  loading s = false -> loading (step s a env) = false.
Proof.
  intros Hs. rewrite step_stepTrace. step_effects s a env; cbn; auto.
Qed.

Lemma step_keeps_bins_located (s : State) (a : Action) (env : Env) :
  (location s = None -> bins s = []) ->
  location (step s a env) = None -> bins (step s a env) = [].
Proof.
  intros Hs. rewrite step_stepTrace.
  step_effects s a env; cbn; auto; rewrite ?Hloc; try discriminate.
Qed.

Lemma initialLoad_bins_located (env : Env) :
  location (run initialLoad env mountState) = None ->
  bins (run initialLoad env mountState) = [].
Proof.
  unfold run, trace. rewrite initialLoad_run.
  destruct (permissionsAnswer env) as [response | e]; [| reflexivity].
  destruct (String.eqb (status response) "granted"); [| reflexivity].
  destruct (positionAnswer env) as [pos | e]; [| reflexivity].
  cbv zeta. destruct (binsNearbyAnswer env _ _ _); cbn; discriminate.
Qed.

End Invariants.

(** X2.  Whenever the screen is at rest (after mounting and after any
    session of user actions) the [loading] flag is down: the overlay is
    hidden and the refresh button is enabled. *)
Theorem screen_at_rest_is_idle (env0 : Env) (acts : list (Action * Env)) :
  loading (screenAfter env0 acts) = false /\
  loadingIndicatorShown (screenAfter env0 acts) = false /\
  refreshDisabled (screenAfter env0 acts) = false.
Proof.
  assert (loading (screenAfter env0 acts) = false) as H.
  { unfold screenAfter.
    apply (session_invariant (fun s => loading s = false)).
    - intros s a env. apply step_keeps_idle.
    - apply initialLoad_loading. }
  repeat split; exact H.
Qed.

(** X3.  In every state the screen can rest in, bins are held only together
    with a location, so the map shows one marker for each bin held. *)
Theorem every_bin_has_its_marker (env0 : Env) (acts : list (Action * Env)) :
  (location (screenAfter env0 acts) = None -> bins (screenAfter env0 acts) = []) /\
  List.length (renderMarkers (screenAfter env0 acts)) =
    List.length (bins (screenAfter env0 acts)) /\
  map key (renderMarkers (screenAfter env0 acts)) =
    map Bin._id (bins (screenAfter env0 acts)).
Proof.
  assert (location (screenAfter env0 acts) = None ->
          bins (screenAfter env0 acts) = []) as H.
  { unfold screenAfter.
    apply (session_invariant (fun s => location s = None -> bins s = [])).
    - intros s a env. apply step_keeps_bins_located.
    - apply initialLoad_bins_located. }
  split; [exact H |]. unfold renderMarkers.
  destruct (location (screenAfter env0 acts)).
  - rewrite length_map, key_renderMarker. split; reflexivity.
  - rewrite (H eq_refl). split; reflexivity.
Qed.

Section Inert.

Lemma step_keeps_unlocated (s : State) (a : Action) (env : Env) :
  location s = None ->
  location (step s a env) = None /\
  bins (step s a env) = bins s /\
  existsb isGetBinsNearby (stepTrace s a env) = false.
Proof.
  intros Hs. rewrite step_stepTrace.
  step_effects s a env; cbn; auto; congruence.
Qed.

Lemma session_keeps_unlocated (acts : list (Action * Env)) (s : State) :
  location s = None ->
  location (session s acts) = None /\
  bins (session s acts) = bins s /\
  existsb isGetBinsNearby (sessionTrace s acts) = false.
Proof.
  revert s. induction acts as [| [a env] acts IH]; intros s Hs.
  - repeat split; auto.
  - cbn [session sessionTrace].
    destruct (step_keeps_unlocated s a env Hs) as (Hloc & Hbins & Hcalls).
    destruct (IH _ Hloc) as (Hloc' & Hbins' & Hcalls').
    rewrite existsb_app, Hcalls, Hcalls', Hbins', Hbins. repeat split; auto.
Qed.

End Inert.

(** X4.  Only the initial load sets the location.  When it ends without one
    (permission denied, or the permission or position request failed), the
    screen stays inert whatever the user does: no location, no bins, no map,
    and no [getBinsNearby] call is ever issued. *)
Theorem no_location_no_fetch (env0 : Env) (acts : list (Action * Env)) :
  location (run initialLoad env0 mountState) = None ->
  location (screenAfter env0 acts) = None /\
  bins (screenAfter env0 acts) = [] /\
  renderMap (screenAfter env0 acts) = None /\
  renderMarkers (screenAfter env0 acts) = [] /\
  existsb isGetBinsNearby
    (sessionTrace (run initialLoad env0 mountState) acts) = false.
Proof.
  intros H0. unfold screenAfter.
  destruct (session_keeps_unlocated acts _ H0) as (Hloc & Hbins & Hcalls).
  unfold renderMap, renderMarkers.
  rewrite Hloc, Hbins, Hcalls, (initialLoad_bins_located env0 H0).
  repeat split.
Qed.

Lemma no_location_no_fetch_witness :
  location (screenAfter envDenied
              [(PressRefresh, envGranted); (PressMarker 0, envGranted);
               (PressRefresh, envGranted)]) = None /\
  bins (screenAfter envDenied
          [(PressRefresh, envGranted); (PressMarker 0, envGranted);
           (PressRefresh, envGranted)]) = [].
Proof.
  destruct (no_location_no_fetch envDenied
              [(PressRefresh, envGranted); (PressMarker 0, envGranted);
               (PressRefresh, envGranted)] eq_refl) as (Hloc & Hbins & _).
  split; [exact Hloc | exact Hbins].
Defined.



(** ** More on the initial load and the refresh *)

(** X6.  Every bins query is for the circle the map then shows: the call is
    made with radius 500 around the location that the state holds once the
    handler is done, in the initial load and in a refresh alike. *)
Theorem fetch_is_for_the_shown_circle
    (env : Env) (s : State) (lat lon r : number) :
  (In (GetBinsNearby lat lon r) (trace initialLoad env) ->
   r = JS.lit 500 /\
   option_map circle (renderMap (run initialLoad env s)) =
     Some {| center := {| latitude := lat; longitude := lon |}; radius := r |}) /\
  (In (GetBinsNearby lat lon r) (trace (onRefresh s) env) ->
   r = JS.lit 500 /\
   option_map circle (renderMap (run (onRefresh s) env s)) =
     Some {| center := {| latitude := lat; longitude := lon |}; radius := r |}).
Proof.
  split.
  - unfold renderMap. initialLoad_cases env; intros Hin; find_in Hin;
      injection Hin as <- <- <-; split; reflexivity.
  - unfold renderMap, onRefresh.
    destruct (location s) as [[lat0 lon0] |] eqn:Hloc; [| intros []].
    refreshBins_cases env {| latitude := lat0; longitude := lon0 |};
      intros Hin; find_in Hin; injection Hin as <- <- <-;
      cbn; rewrite Hloc; split; reflexivity.
Qed.

Lemma fetch_is_for_the_shown_circle_witness :
  option_map circle (renderMap (run initialLoad envGranted mountState)) =
    Some {| center := here; radius := JS.lit 500 |} /\
  option_map circle (renderMap (run (onRefresh loadedState) envFetchFails loadedState)) =
    Some {| center := here; radius := JS.lit 500 |}.
Proof.
  split.
  - apply (proj1 (fetch_is_for_the_shown_circle envGranted mountState
                    (JS.lit 40) (JS.lit (-73)) (JS.lit 500))).
    cbn. tauto.
  - apply (proj2 (fetch_is_for_the_shown_circle envFetchFails loadedState
                    (JS.lit 40) (JS.lit (-73)) (JS.lit 500))).
    cbn. tauto.
Defined.

(** X7.  What the initial load reports is fixed by how its awaited calls
    settle.  When the bins were fetched it reports nothing.  When the
    permission status is not "granted" it raises the permission alert and
    nothing else, whatever the other collaborators would have answered.  When
    the permission request, the position request or the bins query throws, it
    logs the thrown error to the console and then raises the load-error
    alert, and nothing else. *)
Theorem initial_load_alerts (env : Env) :
  (forall bs,
      fetchReturns initialLoad env bs -> reports (trace initialLoad env) = []) /\
  (forall response,
      permissionsAnswer env = Fulfilled response ->
      status response <> "granted" ->
      reports (trace initialLoad env) = [deniedAlert]) /\
  (forall e,
      permissionsAnswer env = Rejected e ->
      reports (trace initialLoad env) =
        [ConsoleError "Error loading map data:" e; loadErrorAlert]) /\
  (forall response e,
      permissionsAnswer env = Fulfilled response ->
      status response = "granted" ->
      positionAnswer env = Rejected e ->
      reports (trace initialLoad env) =
        [ConsoleError "Error loading map data:" e; loadErrorAlert]) /\
  (forall lat lon r e,
      In (GetBinsNearby lat lon r) (trace initialLoad env) ->
      binsNearbyAnswer env lat lon r = Rejected e ->
      reports (trace initialLoad env) =
        [ConsoleError "Error loading map data:" e; loadErrorAlert]).
Proof.
  repeat split.
  - intros bs (lat & lon & r & Hin & Hans). revert Hin.
    initialLoad_cases env; intros Hin; find_in Hin; try reflexivity; congruence.
  - intros response0 Hperm0 Hstatus0. apply String.eqb_neq in Hstatus0.
    initialLoad_cases env; try congruence; reflexivity.
  - intros e0 Hperm0. initialLoad_cases env; try congruence.
    cbn. congruence.
  - intros response0 e0 Hperm0 Hstatus0 Hpos0.
    apply String.eqb_eq in Hstatus0.
    initialLoad_cases env; try congruence. cbn. congruence.
  - intros lat lon r e0 Hin Hrej. revert Hin.
    initialLoad_cases env; intros Hin; find_in Hin; try congruence.
    cbn. congruence.
Qed.

Lemma initial_load_alerts_witness :
  reports (trace initialLoad envDeniedNoFix) = [deniedAlert] /\
  reports (trace initialLoad envFetchFails) =
    [ConsoleError "Error loading map data:" "Network Error"; loadErrorAlert].
Proof.
  destruct (initial_load_alerts envDeniedNoFix) as (_ & Hdenied & _).
  destruct (initial_load_alerts envFetchFails) as (_ & _ & _ & _ & Hfetch).
  split.
  - apply (Hdenied {| status := "denied" |} eq_refl). discriminate.
  - apply (Hfetch (JS.lit 40) (JS.lit (-73)) (JS.lit 500) "Network Error").
    + cbn. tauto.
    + reflexivity.
Defined.

(** X8.  A refresh never raises an alert and never throws: when its bins
    query fails the error is logged to the console and nothing else
    happens. *)
Theorem refresh_fails_silently (env : Env) (s : State) :
  alerts (trace (onRefresh s) env) = [] /\
  (forall e, outcome (onRefresh s) env <> Throw e) /\
  (forall lat lon r e,
      In (GetBinsNearby lat lon r) (trace (onRefresh s) env) ->
      binsNearbyAnswer env lat lon r = Rejected e ->
      trace (onRefresh s) env =
        [SetLoading true; GetBinsNearby lat lon r;
         ConsoleError "Error refreshing bins:" e; SetLoading false]).
Proof.
  unfold onRefresh, outcome.
  destruct (location s) as [loc |].
  - refreshBins_cases env loc; (split; [reflexivity |]);
      (split; [discriminate |]);
      intros lat lon r e' Hin Hrej; find_in Hin; cbn [fst]; congruence.
  - repeat split; try discriminate. intros lat lon r e [].
Qed.

Lemma refresh_fails_silently_witness :
  trace (onRefresh loadedState) envFetchFails =
    [SetLoading true; GetBinsNearby (JS.lit 40) (JS.lit (-73)) (JS.lit 500);
     ConsoleError "Error refreshing bins:" "Network Error"; SetLoading false].
Proof.
  apply (proj2 (proj2 (refresh_fails_silently envFetchFails loadedState))).
  - cbn. tauto.
  - reflexivity.
Defined.

(** X9.  The initial load and the refresh leave the selection and the
    report draft alone, and the refresh leaves the location alone too: they
    write only [loading], [bins] and (the initial load) [location]. *)
Theorem loading_data_keeps_selection_and_draft (env : Env) (s : State) :
  (selectedBin (run initialLoad env s) = selectedBin s /\
   reportVisible (run initialLoad env s) = reportVisible s /\
   reportText (run initialLoad env s) = reportText s /\
   images (run initialLoad env s) = images s) /\
  (location (run (onRefresh s) env s) = location s /\
   selectedBin (run (onRefresh s) env s) = selectedBin s /\
   reportVisible (run (onRefresh s) env s) = reportVisible s /\
   reportText (run (onRefresh s) env s) = reportText s /\
   images (run (onRefresh s) env s) = images s).
Proof.
  split.
  - initialLoad_cases env; repeat split.
  - unfold onRefresh. destruct (location s) as [loc |] eqn:Hloc.
    + refreshBins_cases env loc; cbn; rewrite Hloc; repeat split.
    + cbn. rewrite Hloc. repeat split.
Qed.

(** X10.  When the initial load gets a position but its bins query fails,
    the location is kept although no bins arrived, so the map is shown with
    the bins held before; a refresh then queries around that position and,
    when it succeeds, the map shows what it fetched. *)
Theorem failed_initial_fetch_recovers_by_refresh
    (env1 env2 : Env) (s : State) (pos : LocationObject) (bs : list Bin) :
  permissionsAnswer env1 = Fulfilled {| status := "granted" |} ->
  positionAnswer env1 = Fulfilled pos ->
  fetchThrows initialLoad env1 ->
  binsNearbyAnswer env2 (latitude (coords pos)) (longitude (coords pos))
                   (JS.lit 500) = Fulfilled bs ->
  let s1 := run initialLoad env1 s in
  let s2 := run (onRefresh s1) env2 s1 in
  location s1 = Some {| latitude := latitude (coords pos);
                        longitude := longitude (coords pos) |} /\
  bins s1 = bins s /\
  map key (renderMarkers s1) = map Bin._id (bins s) /\
  bins s2 = bs /\
  map key (renderMarkers s2) = map Bin._id bs.
Proof.
  intros Hperm Hpos Hthrows Hfetch2 s1 s2.
  assert (s1 = applyAll s
            [SetLoading true;
             SetLocation {| latitude := latitude (coords pos);
                            longitude := longitude (coords pos) |};
             SetLoading false]) as Hs1.
  { subst s1. destruct Hthrows as (lat & lon & r & e & Hin & Hrej).
    revert Hin. unfold run, trace. rewrite initialLoad_run, Hperm, Hpos.
    cbn [String.eqb status Ascii.eqb Bool.eqb]. cbv zeta.
    destruct (binsNearbyAnswer env1 (latitude (coords pos))
                (longitude (coords pos)) (JS.lit 500)) as [fetched | e0] eqn:Hfetch1;
      intros Hin; [find_in Hin; congruence | reflexivity]. }
  assert (location s1 = Some {| latitude := latitude (coords pos);
                                longitude := longitude (coords pos) |}) as Hloc1
    by (rewrite Hs1; reflexivity).
  assert (bins s1 = bins s) as Hbins1 by (rewrite Hs1; reflexivity).
  assert (bins s2 = bs /\ location s2 <> None) as [Hbins2 Hloc2].
  { subst s2. unfold onRefresh, run, trace. rewrite Hloc1, refreshBins_run.
    cbn [latitude longitude]. rewrite Hfetch2. cbn. rewrite Hloc1.
    split; [reflexivity | discriminate]. }
  repeat split; auto.
  - apply (markers_shown_keys (bins s) s1); [congruence | exact Hbins1].
  - apply (markers_shown_keys bs s2); assumption.
Qed.

Lemma failed_initial_fetch_recovers_by_refresh_witness :
  bins (run initialLoad envFetchFails mountState) = [] /\
  bins (run (onRefresh (run initialLoad envFetchFails mountState)) envGranted
            (run initialLoad envFetchFails mountState)) = [binA; binB].
Proof.
  destruct (failed_initial_fetch_recovers_by_refresh envFetchFails envGranted
              mountState {| coords := here |} [binA; binB] eq_refl eq_refl)
    as (_ & Hbins1 & _ & Hbins2 & _).
  - exists (JS.lit 40), (JS.lit (-73)), (JS.lit 500), "Network Error".
    split; [cbn; tauto | reflexivity].
  - reflexivity.
  - split; [exact Hbins1 | exact Hbins2].
Defined.

(** X11.  Everything the initial load and the refresh do besides writing
    [loading] (the collaborator calls, the writes of the location and of the
    bins, the logging and the alerts) is done while [loading] is true, that
    is with the overlay up and the refresh button disabled. *)
Theorem effects_happen_under_loading
    (env : Env) (s : State) (n : nat) (e : Event) :
  (nth_error (trace initialLoad env) n = Some e ->
   isSetLoading e = false ->
   loading (applyAll s (firstn n (trace initialLoad env))) = true) /\
  (nth_error (trace (onRefresh s) env) n = Some e ->
   isSetLoading e = false ->
   loading (applyAll s (firstn n (trace (onRefresh s) env))) = true).
Proof.
  split.
  - initialLoad_cases env; cbn [fst]; revert e; walk_trace.
  - unfold onRefresh. destruct (location s) as [loc |].
    + refreshBins_cases env loc; cbn [fst]; revert e; walk_trace.
    + cbn. destruct n; discriminate.
Qed.

Lemma effects_happen_under_loading_witness :
  loading (applyAll loadedState
             (firstn 1 (trace (onRefresh loadedState) envOnlyB))) = true.
Proof.
  apply (proj2 (effects_happen_under_loading envOnlyB loadedState 1
                  (GetBinsNearby (JS.lit 40) (JS.lit (-73)) (JS.lit 500))));
    reflexivity.
Defined.

(** ** More on the report draft *)

(** X12.  Picking images writes nothing but the image list.  The handler has
    no [catch]: when the picker fails, the error leaves the handler and the
    state is as before. *)
Theorem pick_images_touches_only_images (env : Env) (s : State) :
  (location (run (onPickImages s) env s) = location s /\
   bins (run (onPickImages s) env s) = bins s /\
   selectedBin (run (onPickImages s) env s) = selectedBin s /\
   loading (run (onPickImages s) env s) = loading s /\
   reportVisible (run (onPickImages s) env s) = reportVisible s /\
   reportText (run (onPickImages s) env s) = reportText s) /\
  (forall e, pickerAnswer env = Rejected e ->
             outcome (onPickImages s) env = Throw e /\
             run (onPickImages s) env s = s).
Proof.
  unfold run, trace, outcome, onPickImages. rewrite pickImages_run.
  destruct (pickerAnswer env) as [[| assets] | e0]; cbn.
  - repeat split; discriminate.
  - repeat split; discriminate.
  - repeat split; congruence.
Qed.

Lemma pick_images_touches_only_images_witness :
  outcome (onPickImages loadedState) envPickerFails =
    Throw "Missing camera roll permission" /\
  run (onPickImages loadedState) envPickerFails loadedState = loadedState.
Proof.
  exact (proj2 (pick_images_touches_only_images envPickerFails loadedState)
               "Missing camera roll permission" eq_refl).
Defined.

Lemma step_keeps_draft (s : State) (a : Action) (env : Env) :
  editsDraft a = false ->
  reportText (step s a env) = reportText s /\ images (step s a env) = images s.
Proof.
  intros Ha. unfold step, handlerOf, refreshDisabled, onRefresh.
  destruct a as [idx | | | | | text | | | ]; try discriminate Ha.
  - destruct (location s), (nth_error (bins s) idx); split; reflexivity.
  - split; reflexivity.
  - split; reflexivity.
  - destruct (loading s); [split; reflexivity |].
    destruct (location s) as [loc |]; [| split; reflexivity].
    refreshBins_cases env loc; split; reflexivity.
  - split; reflexivity.
  - destruct (reportVisible s); split; reflexivity.
Qed.

(** X13.  The draft changes only by typing, picking images and submitting.
    Through any other actions (cancelling, opening the report, refreshing,
    pressing markers or the truck buttons) the text and the images are kept;
    in particular a cancelled report shows the same draft when it is
    opened again. *)
Theorem draft_survives_other_actions
    (env : Env) (s : State) (acts : list (Action * Env)) :
  Forall (fun ae => editsDraft (fst ae) = false) acts ->
  reportText (session s acts) = reportText s /\
  images (session s acts) = images s /\
  renderReportModal (step (session s acts) PressReport env) =
    Some {| textValue := reportText s; previews := renderPreviews (images s) |}.
Proof.
  intros Hacts.
  assert (reportText (session s acts) = reportText s /\
          images (session s acts) = images s) as [Htext Himages].
  { revert s. induction Hacts as [| [a env'] acts Ha _ IH]; intros s.
    - split; reflexivity.
    - cbn [session]. destruct (IH (step s a env')) as [-> ->].
      apply step_keeps_draft. exact Ha. }
  unfold renderReportModal, step, handlerOf, run. cbn.
  rewrite Htext, Himages. repeat split; assumption.
Qed.

Lemma draft_survives_other_actions_witness :
  renderReportModal
    (step (session (session loadedState
                      [(PressReport, envGranted);
                       (ChangeText "lid broken", envGranted)])
                   [(PressCancel, envGranted); (PressRefresh, envOnlyB)])
          PressReport envGranted) =
  Some {| textValue := "lid broken"; previews := [] |}.
Proof.
  destruct (draft_survives_other_actions envGranted
              (session loadedState
                 [(PressReport, envGranted); (ChangeText "lid broken", envGranted)])
              [(PressCancel, envGranted); (PressRefresh, envOnlyB)])
    as (_ & _ & Hmodal).
  - repeat constructor.
  - exact Hmodal.
Defined.

Section Previews.

Lemma combine_seq_fst (A : Type) (l : list A) (start : nat) :
  map fst (combine (seq start (List.length l)) l) = seq start (List.length l).
Proof.
  revert start. induction l as [| x l IH]; intros start.
  - reflexivity.
  - cbn. rewrite IH. reflexivity.
Qed.

Lemma combine_seq_snd (A : Type) (l : list A) (start : nat) :
  map snd (combine (seq start (List.length l)) l) = l.
Proof.
  revert start. induction l as [| x l IH]; intros start.
  - reflexivity.
  - cbn. rewrite IH. reflexivity.
Qed.

End Previews.

(** X14.  The previews of the modal are the draft's images in order, keyed
    by position 0, 1, 2, ...; the keys are pairwise distinct even when
    the same image was picked twice. *)
Theorem previews_are_keyed_by_position (images : list string) :
  map Preview.uri (renderPreviews images) = images /\
  map Preview.key (renderPreviews images) = seq 0 (List.length images) /\
  NoDup (map Preview.key (renderPreviews images)) /\
  List.length (renderPreviews images) = List.length images.
Proof.
  unfold renderPreviews.
  assert (map Preview.key
            (map (fun p => {| Preview.key := fst p; Preview.uri := snd p |})
                 (combine (seq 0 (List.length images)) images)) =
          seq 0 (List.length images)) as Hkeys.
  { rewrite map_map. cbn [Preview.key]. apply combine_seq_fst. }
  repeat split.
  - rewrite map_map. cbn [Preview.uri]. apply combine_seq_snd.
  - exact Hkeys.
  - rewrite Hkeys. apply seq_NoDup.
  - rewrite <- (length_map Preview.key), Hkeys. apply length_seq.
Qed.

(** ** Selecting a bin *)

(** X15.  Each marker on the map can be pressed, and pressing it shows in the
    detail panel the id and the fill level that the marker itself carries and
    the marker's latitude and longitude written with six decimals
    ([toFixed(6)]); the other cells of the state are untouched. *)
Theorem pressing_a_marker_shows_its_bin
    (env : Env) (s : State) (idx : nat) (m : MarkerProps) :
  nth_error (renderMarkers s) idx = Some m ->
  handlerOf s (PressMarker idx) <> None /\
  renderBinDetails (step s (PressMarker idx) env) =
    Some {| detailFillLevel := markerText m;
            detailLatitude := JS.toFixed (latitude (coordinate m)) 6;
            detailLongitude := JS.toFixed (longitude (coordinate m)) 6;
            detailBinId := key m |} /\
  bins (step s (PressMarker idx) env) = bins s /\
  location (step s (PressMarker idx) env) = location s /\
  loading (step s (PressMarker idx) env) = loading s.
Proof.
  unfold renderMarkers, step, handlerOf.
  destruct (location s) as [loc |] eqn:Hloc;
    [| destruct idx; discriminate].
  rewrite nth_error_map.
  destruct (nth_error (bins s) idx) as [bin |]; [| discriminate].
  cbn. intros [= <-]. rewrite Hloc. repeat split. discriminate.
Qed.

Lemma pressing_a_marker_shows_its_bin_witness :
  option_map detailBinId
    (renderBinDetails (step loadedState (PressMarker 1) envGranted)) = Some "b" /\
  option_map detailLatitude
    (renderBinDetails (step loadedState (PressMarker 1) envGranted)) =
    Some (JS.Str "41.000000").
Proof.
  destruct (pressing_a_marker_shows_its_bin envGranted loadedState 1
              (renderMarker binB) eq_refl) as (_ & Hdetails & _).
  rewrite Hdetails. split; reflexivity.
Defined.

(** ** The report form and the map do not interfere *)

Lemma step_keeps_map (s : State) (a : Action) (env : Env) :
  actsOnMap a = false ->
  location (step s a env) = location s /\
  bins (step s a env) = bins s /\
  selectedBin (step s a env) = selectedBin s /\
  loading (step s a env) = loading s /\
  existsb isGetBinsNearby (stepTrace s a env) = false.
Proof.
  intros Ha. unfold step, stepTrace, handlerOf, onPickImages, onSubmit.
  destruct a as [idx | | | | | text | | | ]; try discriminate Ha;
    try (repeat split; reflexivity);
    destruct (reportVisible s); try (repeat split; reflexivity).
  unfold run, trace. rewrite pickImages_run.
  destruct (pickerAnswer env) as [[| assets] | e]; repeat split; reflexivity.
Qed.

(** X16.  Nothing done in the report form, and no press of a truck button,
    reaches the map: through any such actions the location, the bins, the
    selection and the [loading] flag are unchanged, so are the markers and the
    detail panel, and no bins query is issued. *)
Theorem report_actions_keep_the_map (s : State) (acts : list (Action * Env)) :
  Forall (fun ae => actsOnMap (fst ae) = false) acts ->
  location (session s acts) = location s /\
  bins (session s acts) = bins s /\
  selectedBin (session s acts) = selectedBin s /\
  loading (session s acts) = loading s /\
  renderMap (session s acts) = renderMap s /\
  renderBinDetails (session s acts) = renderBinDetails s /\
  existsb isGetBinsNearby (sessionTrace s acts) = false.
Proof.
  intros Hacts.
  assert (location (session s acts) = location s /\
          bins (session s acts) = bins s /\
          selectedBin (session s acts) = selectedBin s /\
          loading (session s acts) = loading s /\
          existsb isGetBinsNearby (sessionTrace s acts) = false)
    as (Hloc & Hbins & Hsel & Hloading & Hcalls).
  { revert s. induction Hacts as [| [a env] acts Ha _ IH]; intros s.
    - repeat split; reflexivity.
    - cbn [session sessionTrace]. cbn [fst] in Ha.
      destruct (IH (step s a env)) as (-> & -> & -> & -> & Hcalls).
      destruct (step_keeps_map s a env Ha) as (-> & -> & -> & -> & Hcall).
      rewrite existsb_app, Hcall, Hcalls. repeat split; reflexivity. }
  unfold renderMap, renderBinDetails. rewrite Hloc, Hbins, Hsel.
  repeat split; assumption.
Qed.

Lemma report_actions_keep_the_map_witness :
  bins (session selectedA
          [(PressReport, envGranted); (PressPickImages, envGranted);
           (PressSubmit, envGranted); (PressTruck, envGranted)]) = [binA; binB].
Proof.
  destruct (report_actions_keep_the_map selectedA
              [(PressReport, envGranted); (PressPickImages, envGranted);
               (PressSubmit, envGranted); (PressTruck, envGranted)])
    as (_ & Hbins & _).
  - repeat constructor.
  - exact Hbins.
Defined.

(** X17.  Submitting logs the draft as it stands at that moment: the text
    last typed and the images held before together with those just picked;
    afterwards the modal is closed and the draft is empty. *)
Theorem submit_logs_the_draft_as_it_stands
    (s : State) (text : string) (assets : list ImagePickerAsset)
    (envT envP envS : Env) :
  reportVisible s = true ->
  pickerAnswer envP = Fulfilled (Picked assets) ->
  let acts := [(ChangeText text, envT); (PressPickImages, envP);
               (PressSubmit, envS)] in
  In (ConsoleLog "Report Submitted:" text (images s ++ map uri assets))
     (sessionTrace s acts) /\
  renderReportModal (session s acts) = None /\
  reportText (session s acts) = "" /\
  images (session s acts) = [].
Proof.
  intros Hvisible Hpicked acts. subst acts.
  cbn [session sessionTrace].
  set (s1 := step s (ChangeText text) envT).
  assert (s1 = apply s (SetReportText text)) as Hs1
    by (subst s1; unfold step, handlerOf; rewrite Hvisible; reflexivity).
  set (s2 := step s1 PressPickImages envP).
  assert (s2 = apply s1 (SetImages (images s ++ map uri assets))) as Hs2.
  { assert (reportVisible s1 = true) as Hv1 by (rewrite Hs1; exact Hvisible).
    subst s2. unfold step, handlerOf. rewrite Hv1.
    unfold onPickImages, run, trace. rewrite pickImages_run, Hpicked, Hs1.
    reflexivity. }
  assert (stepTrace s2 PressSubmit envS =
          trace (submitReport text (images s ++ map uri assets)) envS) as Ht3.
  { assert (reportVisible s2 = true) as Hv2
      by (rewrite Hs2, Hs1; exact Hvisible).
    unfold stepTrace, handlerOf. rewrite Hv2, Hs2, Hs1. reflexivity. }
  assert (step s2 PressSubmit envS =
          applyAll s2 (trace (submitReport text (images s ++ map uri assets)) envS))
    as Hs3 by (rewrite step_stepTrace, Ht3; reflexivity).
  rewrite Hs3, Ht3. unfold trace. rewrite submitReport_run.
  repeat split. rewrite app_nil_r. apply in_or_app. right. apply in_or_app. right.
  left. reflexivity.
Qed.

Lemma submit_logs_the_draft_as_it_stands_witness :
  In (ConsoleLog "Report Submitted:" "lid broken"
        ["file:///1.jpg"; "file:///2.jpg"])
     (sessionTrace (step loadedState PressReport envGranted)
        [(ChangeText "lid broken", envGranted); (PressPickImages, envGranted);
         (PressSubmit, envGranted)]).
Proof.
  destruct (submit_logs_the_draft_as_it_stands
              (step loadedState PressReport envGranted) "lid broken"
              [photo "file:///1.jpg"; photo "file:///2.jpg"]
              envGranted envGranted envGranted eq_refl eq_refl) as [Hlog _].
  exact Hlog.
Defined.
